(** * Vertex AI Search importer: the Cloud Function [update_vertex_search]

    A shallow embedding of [main.py].  The handler receives a CloudEvent
    whose [data] payload is a dictionary, reads three configuration values
    that the module took from [os.environ] when it was loaded, and either
    returns early (after printing one line) or builds an
    [ImportDocumentsRequest] and hands it to the document service client.

    Strings are [string]; dictionaries ([cloud_event.data], [os.environ])
    are [gmap string string] and the set [ALLOWED_EXTENSIONS] is a
    [gset string].  The two effects of the handler, [print] and the call
    of [import_documents], are recorded in order in a trace; an exception
    ends the run with [Raise]. *)

From Stdlib Require Import ZArith Ascii String List Lia Bool.
From stdpp Require Import base gmap strings list.

Import ListNotations.
Local Open Scope string_scope.
Local Open Scope Z_scope.

(** ** Python strings *)

Module PyStr.

(** [str.rfind(c)]: the highest index at which the character [c]
    occurs, and [-1] when it does not occur.  [i] is the index of the
    head of [s], [acc] the best index seen so far. *)
Fixpoint rfind_from (s : string) (c : ascii) (i acc : Z) : Z :=
  match s with
  | EmptyString => acc
  | String a s' => rfind_from s' c (i + 1) (if Ascii.eqb a c then i else acc)
  end.

Definition rfind (s : string) (c : ascii) : Z := rfind_from s c 0 (-1).

(** [s[:n]] and [s[n:]] for an index [n >= 0]. *)
Fixpoint take (n : nat) (s : string) : string :=
  match n, s with
  | O, _ => EmptyString
  | S _, EmptyString => EmptyString
  | S n', String a s' => String a (take n' s')
  end.

Fixpoint drop (n : nat) (s : string) : string :=
  match n, s with
  | O, _ => s
  | S _, EmptyString => EmptyString
  | S n', String _ s' => drop n' s'
  end.

(** [s[i:i+1]] for [i >= 0]: the one-character string at [i], empty
    past the end. *)
Definition slice1 (s : string) (i : Z) : string :=
  take 1 (drop (Z.to_nat i) s).

(** [str.lower()] on the ASCII range: [A]..[Z] move to [a]..[z] and
    every other character stays.  (On code points beyond ASCII Python
    never yields one of the letters of [ALLOWED_EXTENSIONS].) *)
Definition lower_ascii (c : ascii) : ascii :=
  let n := nat_of_ascii c in
  if (Nat.leb 65 n && Nat.leb n 90)%bool then ascii_of_nat (n + 32) else c.

Fixpoint lower (s : string) : string :=
  match s with
  | EmptyString => EmptyString
  | String a s' => String (lower_ascii a) (lower s')
  end.

(** Truth value of a string: empty is false. *)
Definition nonempty (s : string) : bool :=
  match s with EmptyString => false | String _ _ => true end.

End PyStr.

(** ** [os.path.splitext] (posixpath over [genericpath._splitext]) *)

Module os_path.

Definition sep : ascii := "/"%char.
Definition extsep : ascii := "."%char.

(** The [while filenameIndex < dotIndex] loop of [_splitext]: it
    returns [true] as soon as a character other than [extsep] is met
    (the source then returns [p[:dotIndex], p[dotIndex:]]) and [false]
    when the loop runs out.  [fuel] bounds the number of iterations;
    [dotIndex - filenameIndex] iterations always suffice. *)
Fixpoint skip_leading_dots (fuel : nat) (p : string)
                           (filenameIndex dotIndex : Z) : bool :=
  match fuel with
  | O => false
  | S fuel' =>
      if filenameIndex <? dotIndex then
        if negb (String.eqb (PyStr.slice1 p filenameIndex)
                            (String extsep EmptyString))
        then true
        else skip_leading_dots fuel' p (filenameIndex + 1) dotIndex
      else false
  end.

(** [_splitext(p, sep, altsep=None, extsep)]. *)
Definition splitext (p : string) : string * string :=
  let sepIndex := PyStr.rfind p sep in
  let dotIndex := PyStr.rfind p extsep in
  if (dotIndex >? sepIndex) &&
     skip_leading_dots (Z.to_nat (dotIndex - (sepIndex + 1))) p
                       (sepIndex + 1) dotIndex
  then (PyStr.take (Z.to_nat dotIndex) p, PyStr.drop (Z.to_nat dotIndex) p)
  else (p, EmptyString).

End os_path.

(** ** The request and the client (google.cloud.discoveryengine_v1) *)

Inductive ReconciliationMode : Type :=
  | RECONCILIATION_MODE_UNSPECIFIED
  | INCREMENTAL
  | FULL.

Record GcsSource : Type := mkGcsSource {
  input_uris : list string;
  data_schema : string
}.

Record ImportDocumentsRequest : Type := mkImportDocumentsRequest {
  parent : string;
  gcs_source : GcsSource;
  reconciliation_mode : ReconciliationMode
}.

(** Exceptions.  [except GoogleAPICallError] catches the instances of
    that class and of its subclasses; every other exception passes
    through the clause.  The argument is what [str(e)] prints. *)
Inductive PyException : Type :=
  | GoogleAPICallError (detail : string)
  | OtherException (cls : string) (detail : string).

(** What [import_documents] does with a request: it returns a
    long-running operation, of which the handler reads
    [operation.operation.name], or it raises. *)
Inductive ClientResponse : Type :=
  | Operation (name : string)
  | Raises (e : PyException).

Record DocumentServiceClient : Type := mkDocumentServiceClient {
  import_documents_response : ImportDocumentsRequest -> ClientResponse
}.

(** Modelled from the spec: [DocumentServiceClient.branch_path], a static
    string-formatting helper of the client library, which is not part of
    the repository.  The spec gives the resource name it builds:
    projects/{PROJECT_ID}/locations/{LOCATION}/collections/default_collection/dataStores/{DATA_STORE_ID}/branches/{branch}. *)
Definition branch_path (project location data_store branch : string) : string :=
  "projects/" ++ project ++ "/locations/" ++ location ++
  "/collections/default_collection/dataStores/" ++ data_store ++
  "/branches/" ++ branch.

(** ** Effects: a trace of prints and client calls, and exceptions *)

Inductive Effect : Type :=
  | Print (line : string)
  | ImportDocuments (request : ImportDocumentsRequest).

Inductive Outcome (A : Type) : Type :=
  | Return (a : A)
  | Raise (e : PyException).
Arguments Return {A} a.
Arguments Raise {A} e.

Definition M (A : Type) : Type := (list Effect * Outcome A)%type.

Definition ret {A} (a : A) : M A := ([], Return a).

Definition bind {A B} (m : M A) (k : A -> M B) : M B :=
  match m with
  | (t, Return a) => let '(t', o) := k a in ((t ++ t')%list, o)
  | (t, Raise e) => (t, Raise e)
  end.

Definition raise {A} (e : PyException) : M A := ([], Raise e).

Definition print (line : string) : M unit := ([Print line], Return tt).

(** [try: body  except GoogleAPICallError as e: handler e]. *)
Definition try_except_GoogleAPICallError {A}
    (body : M A) (handler : string -> M A) : M A :=
  match body with
  | (t, Raise (GoogleAPICallError detail)) =>
      let '(t', o) := handler detail in ((t ++ t')%list, o)
  | _ => body
  end.

Declare Scope py_scope.
Delimit Scope py_scope with py.
Notation "x <- m ;; k" := (bind m (fun x => k))
  (at level 100, m at next level, right associativity) : py_scope.
Notation "m ;; k" := (bind m (fun _ => k))
  (at level 100, right associativity) : py_scope.

(** [client.import_documents(request=request)]: one outbound call. *)
Definition import_documents (client : DocumentServiceClient)
    (request : ImportDocumentsRequest) : M string :=
  ([ImportDocuments request],
   match import_documents_response client request with
   | Operation name => Return name
   | Raises e => Raise e
   end).

(** ** Python values read with [dict.get]: a string or [None] *)

Definition truthy (v : option string) : bool :=
  match v with
  | Some s => PyStr.nonempty s
  | None => false
  end.

(** The builtin [all]. *)
Definition all (l : list bool) : bool := forallb (fun b => b) l.

(** [str(v)], as an f-string or [str.format] renders a value. *)
Definition str (v : option string) : string :=
  match v with
  | Some s => s
  | None => "None"
  end.

(** [os.path.splitext(v)]; [None] is not path-like. *)
Definition os_path_splitext (v : option string) : M (string * string) :=
  match v with
  | Some s => ret (os_path.splitext s)
  | None =>
      raise (OtherException "TypeError"
        "expected str, bytes or os.PathLike object, not NoneType")
  end.

Record CloudEvent : Type := mkCloudEvent {
  data : gmap string string
}.

(** ** main.py *)

Definition ALLOWED_EXTENSIONS : gset string :=
  {[ ".html"; ".pdf"; ".docx"; ".pptx"; ".txt"; ".xlsx" ]}.

Section main.

(** The process environment when the module is loaded, and the client
    the module creates once. *)
Variable environ : gmap string string.
Variable document_service_client : DocumentServiceClient.

Definition PROJECT_ID : option string := environ !! "PROJECT_ID".
Definition LOCATION : option string := environ !! "LOCATION".
Definition DATA_STORE_ID : option string := environ !! "DATA_STORE_ID".

Definition update_vertex_search (cloud_event : CloudEvent) : M unit :=
  let data := data cloud_event in
  let bucket_name := data !! "bucket" in
  let file_name := data !! "name" in
  if negb (all [truthy bucket_name; truthy file_name; truthy PROJECT_ID;
                truthy LOCATION; truthy DATA_STORE_ID])
  then
    print "Error: Missing file details or environment variables (PROJECT_ID, LOCATION, DATA_STORE_ID)."
  else (
    print ("Processing file: gs://" ++ str bucket_name ++ "/" ++ str file_name) ;;
    split <- os_path_splitext file_name ;;
    let extension := snd split in
    if negb (bool_decide (PyStr.lower extension ∈ ALLOWED_EXTENSIONS))
    then
      print ("Skipping file '" ++ str file_name ++
             "' with unsupported extension '" ++ extension ++ "'.")
    else
      let gcs_uri := "gs://" ++ str bucket_name ++ "/" ++ str file_name in
      let parent :=
        branch_path (str PROJECT_ID) (str LOCATION) (str DATA_STORE_ID)
                    "default_branch" in
      let request :=
        {| parent := parent;
           gcs_source := {| input_uris := [gcs_uri];
                            data_schema := "content" |};
           reconciliation_mode := INCREMENTAL |} in
      try_except_GoogleAPICallError
        (operation <- import_documents document_service_client request ;;
         print ("Started Vertex AI Search import operation: " ++ operation) ;;
         print ("Successfully triggered import for: " ++ gcs_uri))
        (fun e =>
           print ("Error calling Vertex AI Search API for file " ++
                  gcs_uri ++ ": " ++ e) ;;
           raise (GoogleAPICallError e))
  )%py.

End main.

(** ** Observations on a run *)

Definition trace {A} (m : M A) : list Effect := fst m.
Definition outcome {A} (m : M A) : Outcome A := snd m.

(** The requests handed to [import_documents], in order. *)
Fixpoint submissions (t : list Effect) : list ImportDocumentsRequest :=
  match t with
  | [] => []
  | Print _ :: t' => submissions t'
  | ImportDocuments r :: t' => r :: submissions t'
  end.

(** The printed lines, in order. *)
Fixpoint log_lines (t : list Effect) : list string :=
  match t with
  | [] => []
  | Print l :: t' => l :: log_lines t'
  | ImportDocuments _ :: t' => log_lines t'
  end.

(** What happens up to and including the first call of the client, and
    what happens after it. *)
Fixpoint until_submission (t : list Effect) : list Effect :=
  match t with
  | [] => []
  | Print l :: t' => Print l :: until_submission t'
  | ImportDocuments r :: _ => [ImportDocuments r]
  end.

Fixpoint after_submission (t : list Effect) : list Effect :=
  match t with
  | [] => []
  | Print _ :: t' => after_submission t'
  | ImportDocuments _ :: t' => t'
  end.

Definition detail_of (e : PyException) : string :=
  match e with
  | GoogleAPICallError d => d
  | OtherException _ d => d
  end.

(** [line] contains [s]; [s] ends in [suffix]. *)
Definition names (line s : string) : Prop :=
  exists pre post, line = pre ++ s ++ post.

Definition endswith (s suffix : string) : Prop :=
  exists pre, s = pre ++ suffix.

Definition missing_or_empty (v : option string) : Prop :=
  v = None \/ v = Some EmptyString.

(** The guard of the first [if] of the handler, named for the statements
    below. *)
Definition fields_present (environ : gmap string string)
    (cloud_event : CloudEvent) : bool :=
  all [truthy (data cloud_event !! "bucket");
       truthy (data cloud_event !! "name");
       truthy (PROJECT_ID environ); truthy (LOCATION environ);
       truthy (DATA_STORE_ID environ)].

(** The extension test of the second [if]. *)
Definition extension_allowed (name : string) : bool :=
  bool_decide (PyStr.lower (snd (os_path.splitext name)) ∈ ALLOWED_EXTENSIONS).

(** The three lines the handler can print before or instead of a call. *)
Definition missing_line : string :=
  "Error: Missing file details or environment variables (PROJECT_ID, LOCATION, DATA_STORE_ID).".

Definition processing_line (bucket name : string) : string :=
  "Processing file: gs://" ++ bucket ++ "/" ++ name.

Definition skipping_line (name : string) : string :=
  "Skipping file '" ++ name ++ "' with unsupported extension '" ++
  snd (os_path.splitext name) ++ "'.".

(** The request of an event that passes both tests. *)
Definition request_of (project location data_store bucket name : string)
    : ImportDocumentsRequest :=
  {| parent := branch_path project location data_store "default_branch";
     gcs_source := {| input_uris := ["gs://" ++ bucket ++ "/" ++ name];
                      data_schema := "content" |};
     reconciliation_mode := INCREMENTAL |}.

(** A process that serves a sequence of events: the module is loaded
    once, each event invokes the handler, and the client may answer each
    call in its own way. *)
Definition serve (environ : gmap string string)
    (invocations : list (DocumentServiceClient * CloudEvent)) : list (M unit) :=
  List.map (fun ce => update_vertex_search environ (fst ce) (snd ce)) invocations.

(** ** The extension as the specification words it *)

Module Spec.

(** The suffix of [s] that starts at the last occurrence of [c]. *)
Fixpoint suffix_from_last (c : ascii) (s : string) : option string :=
  match s with
  | EmptyString => None
  | String a s' =>
      match suffix_from_last c s' with
      | Some r => Some r
      | None => if Ascii.eqb a c then Some s else None
      end
  end.

(** What follows the last path separator. *)
Definition basename (name : string) : string :=
  match suffix_from_last "/"%char name with
  | Some (String _ r) => r
  | _ => name
  end.

(** "The suffix after the last path separator and the last dot,
    lower-cased": the last component of the name from its last dot on
    (the allow-set spells its entries with the dot), and nothing when
    that component has no dot. *)
Definition extension (name : string) : string :=
  match suffix_from_last "."%char (basename name) with
  | Some e => PyStr.lower e
  | None => EmptyString
  end.

(** Every character of [s] is a dot (also when [s] is empty). *)
Fixpoint dots_only (s : string) : bool :=
  match s with
  | EmptyString => true
  | String a s' => Ascii.eqb a "."%char && dots_only s'
  end.

(** The last component up to its last dot. *)
Definition stem (name : string) : string :=
  let base := basename name in
  match suffix_from_last "."%char base with
  | Some e => PyStr.take (String.length base - String.length e)%nat base
  | None => base
  end.

End Spec.

(** [c] occurs in [s]. *)
Fixpoint occurs (c : ascii) (s : string) : bool :=
  match s with
  | EmptyString => false
  | String a s' => Ascii.eqb a c || occurs c s'
  end.

(** A directory prefix: nothing, or something that ends in the path
    separator. *)
Definition dir_like (dir : string) : Prop :=
  dir = EmptyString \/ exists d, dir = d ++ "/".

(** ** Statements about a run *)

(** After the call, a line is printed that names every URI of the
    request and the detail of the failure [e]. *)
Definition error_logged (run : M unit) (request : ImportDocumentsRequest)
    (e : PyException) : Prop :=
  exists line,
    In line (log_lines (after_submission (trace run))) /\
    (forall uri, In uri (input_uris (gcs_source request)) -> names line uri) /\
    names line (detail_of e).

(** Whatever failure the client raises for the submitted request is
    logged and raised again. *)
Definition failure_logged_and_reraised (environ : gmap string string)
    (client : DocumentServiceClient) (ev : CloudEvent) : Prop :=
  let run := update_vertex_search environ client ev in
  forall request e,
    In (ImportDocuments request) (trace run) ->
    import_documents_response client request = Raises e ->
    error_logged run request e /\ outcome run = Raise e.

(** At most one call and exactly one printed line. *)
Definition one_call_at_most_and_one_line (run : M unit) : Prop :=
  (length (submissions (trace run)) <= 1)%nat /\
  length (log_lines (trace run)) = 1%nat.

(** The extension the handler compares is the one the specification
    describes. *)
Definition extension_as_specified (name : string) : Prop :=
  PyStr.lower (snd (os_path.splitext name)) = Spec.extension name.


(** Inputs used in the examples. *)
Definition ex_environ : gmap string string :=
  <["PROJECT_ID" := "my-project"]>
    (<["LOCATION" := "global"]> (<["DATA_STORE_ID" := "my-store"]> ∅)).

Definition ex_event (bucket name : string) : CloudEvent :=
  {| data := <["bucket" := bucket]> (<["name" := name]> ∅) |}.

Definition accepting_client : DocumentServiceClient :=
  {| import_documents_response := fun _ => Operation "operations/import-1" |}.

Definition denying_client : DocumentServiceClient :=
  {| import_documents_response :=
       fun _ => Raises (GoogleAPICallError "403 Permission denied") |}.

Definition timing_out_client : DocumentServiceClient :=
  {| import_documents_response :=
       fun _ => Raises (OtherException "RetryError" "Deadline exceeded") |}.

(** * Properties *)

(** ** Strings *)

Lemma append_cons (a : ascii) (s t : string) :
  String a s ++ t = String a (s ++ t).
Proof. reflexivity. Qed.

Lemma append_empty_l (t : string) : EmptyString ++ t = t.
Proof. reflexivity. Qed.

Lemma append_assoc (s t u : string) : (s ++ t) ++ u = s ++ (t ++ u).
Proof.
  induction s as [|a s IH]; [reflexivity |].
  rewrite !append_cons, IH. reflexivity.
Qed.

Lemma append_empty_r (s : string) : s ++ EmptyString = s.
Proof.
  induction s as [|a s IH]; [reflexivity |].
  rewrite append_cons, IH. reflexivity.
Qed.

Lemma length_append (s t : string) :
  String.length (s ++ t) = (String.length s + String.length t)%nat.
Proof.
  induction s as [|a s IH]; [reflexivity |].
  rewrite append_cons. simpl. rewrite IH. reflexivity.
Qed.

Lemma occurs_append (c : ascii) (s t : string) :
  occurs c (s ++ t) = occurs c s || occurs c t.
Proof.
  induction s as [|a s IH]; [reflexivity |].
  rewrite append_cons. simpl. rewrite IH, orb_assoc. reflexivity.
Qed.

Lemma take_append (s t : string) : PyStr.take (String.length s) (s ++ t) = s.
Proof.
  induction s as [|a s IH]; [destruct t; reflexivity |].
  rewrite append_cons. simpl. rewrite IH. reflexivity.
Qed.

Lemma drop_append (s t : string) : PyStr.drop (String.length s) (s ++ t) = t.
Proof.
  induction s as [|a s IH]; [destruct t; reflexivity |].
  rewrite append_cons. simpl. exact IH.
Qed.

(** Every string either lacks [c] or splits at its last [c]. *)
Lemma split_at_last (c : ascii) (s : string) :
  occurs c s = false \/
  exists pre post, s = pre ++ String c post /\ occurs c post = false.
Proof.
  induction s as [|a s IH]; [left; reflexivity |].
  destruct IH as [Hno | (pre & post & -> & Hpost)].
  - destruct (Ascii.eqb a c) eqn:Hac.
    + right. apply Ascii.eqb_eq in Hac. subst a.
      exists EmptyString, s. split; [reflexivity | exact Hno].
    + left. simpl. rewrite Hac, Hno. reflexivity.
  - right. exists (String a pre), post. split; [reflexivity | exact Hpost].
Qed.

(** ** [rfind] *)

Lemma rfind_from_append (s t : string) (c : ascii) (i acc : Z) :
  PyStr.rfind_from (s ++ t) c i acc =
  PyStr.rfind_from t c (i + Z.of_nat (String.length s))
                   (PyStr.rfind_from s c i acc).
Proof.
  revert i acc. induction s as [|a s IH]; intros i acc.
  - simpl. rewrite append_empty_l. f_equal. lia.
  - rewrite append_cons. cbn [PyStr.rfind_from String.length].
    rewrite IH. f_equal. lia.
Qed.

Lemma rfind_from_absent (s : string) (c : ascii) (i acc : Z) :
  occurs c s = false -> PyStr.rfind_from s c i acc = acc.
Proof.
  revert i acc. induction s as [|a s IH]; intros i acc H; [reflexivity |].
  simpl in H. apply orb_false_iff in H. destruct H as [Ha Hs].
  simpl. rewrite Ha. apply IH, Hs.
Qed.

Lemma rfind_absent (s : string) (c : ascii) :
  occurs c s = false -> PyStr.rfind s c = -1.
Proof. apply rfind_from_absent. Qed.

Lemma rfind_last (pre post : string) (c : ascii) :
  occurs c post = false ->
  PyStr.rfind (pre ++ String c post) c = Z.of_nat (String.length pre).
Proof.
  intros H. unfold PyStr.rfind. rewrite rfind_from_append.
  cbn [PyStr.rfind_from]. rewrite Ascii.eqb_refl.
  rewrite (rfind_from_absent _ _ _ _ H). lia.
Qed.

Lemma rfind_sep (dir rest : string) :
  dir_like dir -> occurs "/" rest = false ->
  PyStr.rfind (dir ++ rest) os_path.sep = Z.of_nat (String.length dir) - 1.
Proof.
  intros [-> | (d & ->)] H.
  - rewrite append_empty_l. apply (rfind_absent rest "/" H).
  - rewrite append_assoc. change ("/" ++ rest) with (String "/" rest).
    unfold os_path.sep. rewrite (rfind_last d rest "/" H).
    rewrite length_append. simpl. lia.
Qed.

(** ** The loop of [_splitext] *)

Lemma skip_leading_dots_stem (dir stem tail : string) :
  os_path.skip_leading_dots (String.length stem) (dir ++ stem ++ tail)
    (Z.of_nat (String.length dir))
    (Z.of_nat (String.length dir) + Z.of_nat (String.length stem))
  = negb (Spec.dots_only stem).
Proof.
  revert dir. induction stem as [|a stem IH]; intros dir; [reflexivity |].
  cbn [String.length os_path.skip_leading_dots Spec.dots_only].
  replace (Z.of_nat (String.length dir) <?
           Z.of_nat (String.length dir) + Z.of_nat (S (String.length stem)))
    with true by (symmetry; apply Z.ltb_lt; lia).
  unfold PyStr.slice1. rewrite Nat2Z.id, drop_append.
  rewrite append_cons. cbn [PyStr.take String.eqb].
  unfold os_path.extsep.
  destruct (Ascii.eqb a ".") eqn:Ha; [| reflexivity].
  cbn [negb andb].
  specialize (IH (dir ++ String a EmptyString)).
  rewrite append_assoc, length_append in IH. simpl in IH.
  rewrite <- IH. f_equal; lia.
Qed.

(** ** [splitext] on a name split into directory, stem and extension *)

Lemma splitext_with_dot (dir stem e : string) :
  dir_like dir ->
  occurs "/" stem = false -> occurs "/" e = false -> occurs "." e = false ->
  os_path.splitext (dir ++ stem ++ String "." e) =
  if Spec.dots_only stem
  then (dir ++ stem ++ String "." e, EmptyString)
  else (dir ++ stem, String "." e).
Proof.
  intros Hdir Hstem He Hdot. unfold os_path.splitext.
  rewrite (rfind_sep dir (stem ++ String "." e) Hdir).
  2:{ rewrite occurs_append, Hstem. simpl. exact He. }
  unfold os_path.extsep.
  rewrite <- append_assoc, (rfind_last (dir ++ stem) e "." Hdot).
  rewrite length_append, append_assoc.
  replace (Z.of_nat (String.length dir + String.length stem) >?
           Z.of_nat (String.length dir) - 1)
    with true by (symmetry; apply Z.gtb_lt; lia).
  replace (Z.to_nat (Z.of_nat (String.length dir + String.length stem) -
                     (Z.of_nat (String.length dir) - 1 + 1)))
    with (String.length stem) by lia.
  replace (Z.of_nat (String.length dir) - 1 + 1)
    with (Z.of_nat (String.length dir)) by lia.
  rewrite Nat2Z.inj_add.
  rewrite (skip_leading_dots_stem dir stem (String "." e)).
  cbn [andb]. destruct (Spec.dots_only stem); cbn [negb]; [reflexivity |].
  rewrite <- Nat2Z.inj_add, Nat2Z.id, <- length_append, <- append_assoc.
  rewrite take_append, drop_append. reflexivity.
Qed.

Lemma splitext_without_dot (dir base : string) :
  dir_like dir -> occurs "/" base = false -> occurs "." base = false ->
  os_path.splitext (dir ++ base) = (dir ++ base, EmptyString).
Proof.
  intros Hdir Hsep Hdot. unfold os_path.splitext.
  rewrite (rfind_sep dir base Hdir Hsep).
  destruct (PyStr.rfind (dir ++ base) os_path.extsep >?
            Z.of_nat (String.length dir) - 1) eqn:Hgt; [| reflexivity].
  exfalso. apply Z.gtb_lt in Hgt.
  unfold PyStr.rfind in Hgt. rewrite rfind_from_append in Hgt.
  rewrite (rfind_from_absent base _ _ _ Hdot) in Hgt.
  clear Hsep Hdot. revert Hgt.
  assert (Hbound : forall s i acc,
             acc < i -> PyStr.rfind_from s os_path.extsep i acc
                        < i + Z.of_nat (String.length s)).
  { induction s as [|a s IH]; intros i acc Hacc.
    - simpl. lia.
    - cbn [PyStr.rfind_from String.length].
      specialize (IH (i + 1) (if Ascii.eqb a os_path.extsep then i else acc)).
      destruct (Ascii.eqb a os_path.extsep); lia. }
  intros Hgt. specialize (Hbound dir 0 (-1)). lia.
Qed.

(** ** The specification's extension on a split name *)

Lemma suffix_from_last_absent (c : ascii) (s : string) :
  occurs c s = false -> Spec.suffix_from_last c s = None.
Proof.
  induction s as [|a s IH]; intros H; [reflexivity |].
  simpl in H. apply orb_false_iff in H. destruct H as [Ha Hs].
  simpl. rewrite (IH Hs), Ha. reflexivity.
Qed.

Lemma suffix_from_last_last (c : ascii) (pre post : string) :
  occurs c post = false ->
  Spec.suffix_from_last c (pre ++ String c post) = Some (String c post).
Proof.
  intros H. induction pre as [|a pre IH].
  - rewrite append_empty_l. simpl.
    rewrite (suffix_from_last_absent c post H), Ascii.eqb_refl. reflexivity.
  - rewrite append_cons. simpl. rewrite IH. reflexivity.
Qed.

Lemma basename_split (dir rest : string) :
  dir_like dir -> occurs "/" rest = false ->
  Spec.basename (dir ++ rest) = rest.
Proof.
  intros [-> | (d & ->)] H; unfold Spec.basename.
  - rewrite append_empty_l, (suffix_from_last_absent "/" rest H).
    reflexivity.
  - rewrite append_assoc. change ("/" ++ rest) with (String "/" rest).
    rewrite (suffix_from_last_last "/" d rest H). reflexivity.
Qed.

(** Every name is a directory prefix followed by a component without
    separator. *)
Lemma split_dir (name : string) :
  exists dir base,
    name = dir ++ base /\ dir_like dir /\ occurs "/" base = false.
Proof.
  destruct (split_at_last "/" name) as [H | (pre & post & -> & H)].
  - exists EmptyString, name. split; [reflexivity |].
    split; [left; reflexivity | exact H].
  - exists (pre ++ "/"), post. split.
    + rewrite append_assoc. reflexivity.
    + split; [right; exists pre; reflexivity | exact H].
Qed.

(** The extension the handler compares, against the specification's. *)
Lemma lower_splitext_spec (name : string) :
  PyStr.lower (snd (os_path.splitext name)) =
  if Spec.dots_only (Spec.stem name) then EmptyString
  else Spec.extension name.
Proof.
  destruct (split_dir name) as (dir & base & -> & Hdir & Hsep).
  unfold Spec.stem, Spec.extension. rewrite (basename_split dir base Hdir Hsep).
  destruct (split_at_last "." base) as [Hdot | (stem & e & -> & Hdot)].
  - rewrite (splitext_without_dot dir base Hdir Hsep Hdot).
    rewrite (suffix_from_last_absent "." base Hdot).
    destruct (Spec.dots_only base); reflexivity.
  - rewrite occurs_append in Hsep. apply orb_false_iff in Hsep.
    destruct Hsep as [Hstem He]. simpl in He.
    rewrite (splitext_with_dot dir stem e Hdir Hstem He Hdot).
    rewrite (suffix_from_last_last "." stem e Hdot).
    rewrite length_append.
    replace (String.length stem + String.length (String "." e) -
             String.length (String "." e))%nat
      with (String.length stem) by lia.
    rewrite take_append.
    destruct (Spec.dots_only stem); reflexivity.
Qed.

(** ** The guard *)

Lemma truthy_true (v : option string) :
  truthy v = true <-> exists s, v = Some s /\ s <> EmptyString.
Proof.
  split.
  - destruct v as [[|a s]|]; simpl; intros H; try discriminate.
    exists (String a s). split; [reflexivity | discriminate].
  - intros (s & -> & Hs). destruct s; [congruence | reflexivity].
Qed.

Lemma truthy_false (v : option string) :
  truthy v = false <-> missing_or_empty v.
Proof.
  unfold missing_or_empty. split.
  - destruct v as [[|a s]|]; simpl; intros H; try discriminate; auto.
  - intros [-> | ->]; reflexivity.
Qed.

Lemma fields_present_true (environ : gmap string string) (ev : CloudEvent) :
  fields_present environ ev = true <->
  exists bucket name project location data_store,
    data ev !! "bucket" = Some bucket /\ data ev !! "name" = Some name /\
    environ !! "PROJECT_ID" = Some project /\
    environ !! "LOCATION" = Some location /\
    environ !! "DATA_STORE_ID" = Some data_store /\
    bucket <> EmptyString /\ name <> EmptyString /\
    project <> EmptyString /\ location <> EmptyString /\
    data_store <> EmptyString.
Proof.
  unfold fields_present, all, PROJECT_ID, LOCATION, DATA_STORE_ID. simpl.
  rewrite !andb_true_iff, !truthy_true. split.
  - intros ((b & Hb & Hb') & (n & Hn & Hn') & (p & Hp & Hp') &
            (l & Hl & Hl') & (d & Hd & Hd') & _).
    exists b, n, p, l, d. tauto.
  - intros (b & n & p & l & d & Hb & Hn & Hp & Hl & Hd & ? & ? & ? & ? & ?).
    repeat split; eauto.
Qed.

Lemma fields_present_false (environ : gmap string string) (ev : CloudEvent) :
  fields_present environ ev = false <->
  missing_or_empty (data ev !! "bucket") \/
  missing_or_empty (data ev !! "name") \/
  missing_or_empty (environ !! "PROJECT_ID") \/
  missing_or_empty (environ !! "LOCATION") \/
  missing_or_empty (environ !! "DATA_STORE_ID").
Proof.
  unfold fields_present, all, PROJECT_ID, LOCATION, DATA_STORE_ID. simpl.
  rewrite !andb_false_iff, !truthy_false. split.
  - intros [H | [H | [H | [H | [H | H]]]]]; try tauto. discriminate.
  - tauto.
Qed.

(** ** One equation for each way through the handler *)

Section Runs.

Variable environ : gmap string string.
Variable client : DocumentServiceClient.
Variable ev : CloudEvent.

Lemma run_missing :
  fields_present environ ev = false ->
  update_vertex_search environ client ev = ([Print missing_line], Return tt).
Proof.
  intros H. unfold update_vertex_search.
  change (all _) with (fields_present environ ev). rewrite H. reflexivity.
Qed.

Variables bucket name project location data_store : string.
Hypothesis Hbucket : data ev !! "bucket" = Some bucket.
Hypothesis Hname : data ev !! "name" = Some name.
Hypothesis Hproject : environ !! "PROJECT_ID" = Some project.
Hypothesis Hlocation : environ !! "LOCATION" = Some location.
Hypothesis Hdata_store : environ !! "DATA_STORE_ID" = Some data_store.
Hypothesis Hpresent : fields_present environ ev = true.

Lemma run_skipped :
  extension_allowed name = false ->
  update_vertex_search environ client ev =
  ([Print (processing_line bucket name); Print (skipping_line name)],
   Return tt).
Proof.
  intros H. unfold update_vertex_search.
  change (all _) with (fields_present environ ev). rewrite Hpresent.
  rewrite Hbucket, Hname. cbn [negb str os_path_splitext].
  unfold bind, print, ret. cbn [snd].
  change (bool_decide _) with (extension_allowed name). rewrite H.
  reflexivity.
Qed.

Lemma run_submitted :
  extension_allowed name = true ->
  update_vertex_search environ client ev =
  let request := request_of project location data_store bucket name in
  let gcs_uri := "gs://" ++ bucket ++ "/" ++ name in
  match import_documents_response client request with
  | Operation op =>
      ([Print (processing_line bucket name); ImportDocuments request;
        Print ("Started Vertex AI Search import operation: " ++ op);
        Print ("Successfully triggered import for: " ++ gcs_uri)],
       Return tt)
  | Raises (GoogleAPICallError d) =>
      ([Print (processing_line bucket name); ImportDocuments request;
        Print ("Error calling Vertex AI Search API for file " ++
               gcs_uri ++ ": " ++ d)],
       Raise (GoogleAPICallError d))
  | Raises (OtherException c d) =>
      ([Print (processing_line bucket name); ImportDocuments request],
       Raise (OtherException c d))
  end.
Proof.
  intros H. unfold update_vertex_search.
  change (all _) with (fields_present environ ev). rewrite Hpresent.
  rewrite Hbucket, Hname. unfold PROJECT_ID, LOCATION, DATA_STORE_ID.
  rewrite Hproject, Hlocation, Hdata_store.
  cbn [negb str os_path_splitext].
  unfold bind at 1 2. unfold print at 1. unfold ret. cbn [snd].
  change (bool_decide _) with (extension_allowed name). rewrite H.
  cbn [negb]. fold (request_of project location data_store bucket name).
  unfold import_documents, try_except_GoogleAPICallError, bind, print, raise.
  cbn zeta.
  destruct (import_documents_response client _) as [op | [d | c d]];
    reflexivity.
Qed.

End Runs.

(** Every run is one of five. *)
Lemma run_cases (environ : gmap string string)
    (client : DocumentServiceClient) (ev : CloudEvent) :
  let run := update_vertex_search environ client ev in
  (fields_present environ ev = false /\ run = ([Print missing_line], Return tt))
  \/
  (exists bucket name project location data_store,
     (data ev !! "bucket" = Some bucket /\ data ev !! "name" = Some name /\
      environ !! "PROJECT_ID" = Some project /\
      environ !! "LOCATION" = Some location /\
      environ !! "DATA_STORE_ID" = Some data_store) /\
     fields_present environ ev = true /\
     ((extension_allowed name = false /\
       run = ([Print (processing_line bucket name);
               Print (skipping_line name)], Return tt))
      \/
      (extension_allowed name = true /\
       let request := request_of project location data_store bucket name in
       let gcs_uri := "gs://" ++ bucket ++ "/" ++ name in
       ((exists op,
           import_documents_response client request = Operation op /\
           run = ([Print (processing_line bucket name);
                   ImportDocuments request;
                   Print ("Started Vertex AI Search import operation: " ++ op);
                   Print ("Successfully triggered import for: " ++ gcs_uri)],
                  Return tt))
        \/
        (exists d,
           import_documents_response client request =
             Raises (GoogleAPICallError d) /\
           run = ([Print (processing_line bucket name);
                   ImportDocuments request;
                   Print ("Error calling Vertex AI Search API for file " ++
                          gcs_uri ++ ": " ++ d)],
                  Raise (GoogleAPICallError d)))
        \/
        (exists c d,
           import_documents_response client request =
             Raises (OtherException c d) /\
           run = ([Print (processing_line bucket name);
                   ImportDocuments request],
                  Raise (OtherException c d))))))).
Proof.
  intros run. subst run.
  destruct (fields_present environ ev) eqn:Hp.
  - right.
    destruct (proj1 (fields_present_true environ ev) Hp)
      as (b & n & p & l & d & Hb & Hn & Hpr & Hl & Hd & _).
    exists b, n, p, l, d. split; [tauto |]. split; [reflexivity |].
    destruct (extension_allowed n) eqn:Ha.
    + right. split; [reflexivity |].
      rewrite (run_submitted environ client ev b n p l d Hb Hn Hpr Hl Hd Hp Ha).
      cbn zeta.
      destruct (import_documents_response client _) as [op | [e | c e]];
        eauto 6.
    + left. split; [reflexivity |].
      apply (run_skipped environ client ev b n Hb Hn Hp Ha).
  - left. split; [reflexivity |]. apply run_missing, Hp.
Qed.

Lemma allowed_extensions_list (x : string) :
  x ∈ ALLOWED_EXTENSIONS <->
  In x [".html"; ".pdf"; ".docx"; ".pptx"; ".txt"; ".xlsx"].
Proof.
  unfold ALLOWED_EXTENSIONS. simpl.
  rewrite !elem_of_union, !elem_of_singleton. intuition congruence.
Qed.

Lemma extension_allowed_true (name : string) :
  extension_allowed name = true <->
  PyStr.lower (snd (os_path.splitext name)) ∈ ALLOWED_EXTENSIONS.
Proof. unfold extension_allowed. apply bool_decide_eq_true. Qed.

Lemma endswith_branch_path (project location data_store branch : string) :
  endswith (branch_path project location data_store branch)
           ("/branches/" ++ branch).
Proof.
  unfold endswith, branch_path.
  exists ("projects/" ++ project ++ "/locations/" ++ location ++
          "/collections/default_collection/dataStores/" ++ data_store).
  rewrite <- !append_assoc. reflexivity.
Qed.

(** ** The claims *)

(** C1: a request is handed to [import_documents] exactly when bucket,
    object name, PROJECT_ID, LOCATION and DATA_STORE_ID are all present
    and non-empty and the lower-cased extension of the object name is one
    of .html, .pdf, .docx, .pptx, .txt, .xlsx; in every other case the
    run makes no call. *)
Theorem import_only_when_valid_and_allowed
    (environ : gmap string string) (client : DocumentServiceClient)
    (ev : CloudEvent) :
  submissions (trace (update_vertex_search environ client ev)) <> [] <->
  exists bucket name project location data_store,
    data ev !! "bucket" = Some bucket /\ data ev !! "name" = Some name /\
    environ !! "PROJECT_ID" = Some project /\
    environ !! "LOCATION" = Some location /\
    environ !! "DATA_STORE_ID" = Some data_store /\
    bucket <> EmptyString /\ name <> EmptyString /\
    project <> EmptyString /\ location <> EmptyString /\
    data_store <> EmptyString /\
    In (PyStr.lower (snd (os_path.splitext name)))
       [".html"; ".pdf"; ".docx"; ".pptx"; ".txt"; ".xlsx"].
Proof.
  split.
  - intros Hsub.
    destruct (run_cases environ client ev)
      as [[_ Hr] | (b & n & p & l & d & Hlook & Hp & Hrest)].
    + rewrite Hr in Hsub. simpl in Hsub. congruence.
    + destruct Hrest as [[_ Hr] | [Ha _]].
      * rewrite Hr in Hsub. simpl in Hsub. congruence.
      * destruct (proj1 (fields_present_true environ ev) Hp)
          as (b' & n' & p' & l' & d' & Hb & Hn & Hpr & Hl & Hd & Hne).
        destruct Hlook as (Hb0 & Hn0 & Hp0 & Hl0 & Hd0).
        assert (b' = b) by congruence. assert (n' = n) by congruence.
        assert (p' = p) by congruence. assert (l' = l) by congruence.
        assert (d' = d) by congruence. subst.
        exists b, n, p, l, d. repeat (split; [tauto |]).
        apply allowed_extensions_list, extension_allowed_true, Ha.
  - intros (b & n & p & l & d & Hb & Hn & Hpr & Hl & Hd & ? & ? & ? & ? & ?
            & Hin).
    assert (Hp : fields_present environ ev = true).
    { apply fields_present_true. exists b, n, p, l, d. tauto. }
    assert (Ha : extension_allowed n = true).
    { apply extension_allowed_true, allowed_extensions_list, Hin. }
    rewrite (run_submitted environ client ev b n p l d Hb Hn Hpr Hl Hd Hp Ha).
    cbn zeta.
    destruct (import_documents_response client _) as [op | [e | c e]];
      simpl; discriminate.
Qed.

(** C2: whenever a run reaches the call of [import_documents], the
    request it hands over has the one-element source list
    [gs://{bucket}/{name}], the data schema "content", the reconciliation
    mode INCREMENTAL, and as parent the branch path built from
    PROJECT_ID, LOCATION and DATA_STORE_ID, which ends in
    "/branches/default_branch". *)
Theorem submitted_request_shape
    (environ : gmap string string) (client : DocumentServiceClient)
    (ev : CloudEvent) (request : ImportDocumentsRequest) :
  In (ImportDocuments request)
     (trace (update_vertex_search environ client ev)) ->
  exists bucket name project location data_store,
    data ev !! "bucket" = Some bucket /\ data ev !! "name" = Some name /\
    environ !! "PROJECT_ID" = Some project /\
    environ !! "LOCATION" = Some location /\
    environ !! "DATA_STORE_ID" = Some data_store /\
    input_uris (gcs_source request) = ["gs://" ++ bucket ++ "/" ++ name] /\
    data_schema (gcs_source request) = "content" /\
    reconciliation_mode request = INCREMENTAL /\
    parent request =
      branch_path project location data_store "default_branch" /\
    endswith (parent request) "/branches/default_branch".
Proof.
  intros Hin.
  destruct (run_cases environ client ev)
    as [[_ Hr] | (b & n & p & l & d & Hlook & Hp & Hrest)].
  - rewrite Hr in Hin. simpl in Hin. destruct Hin as [H | []]. discriminate.
  - exists b, n, p, l, d. repeat (split; [tauto |]).
    assert (Hreq : request = request_of p l d b n).
    { destruct Hrest as [[_ Hr] | [_ Hr]].
      - rewrite Hr in Hin. simpl in Hin.
        destruct Hin as [H | [H | []]]; discriminate.
      - cbn zeta in Hr.
        destruct Hr as [(op & _ & Hr) | [(e & _ & Hr) | (c & e & _ & Hr)]];
          rewrite Hr in Hin; simpl in Hin;
          repeat (destruct Hin as [Hin | Hin]; try discriminate;
                  try contradiction);
          congruence. }
    subst request. simpl.
    repeat (split; [reflexivity |]).
    apply (endswith_branch_path p l d "default_branch").
Qed.

(** C4: when bucket, name or one of the three configuration values is
    missing or empty, the handler prints the error line and returns
    normally: nothing is submitted and nothing is raised. *)
Theorem missing_fields_noop
    (environ : gmap string string) (client : DocumentServiceClient)
    (ev : CloudEvent) :
  missing_or_empty (data ev !! "bucket") \/
  missing_or_empty (data ev !! "name") \/
  missing_or_empty (environ !! "PROJECT_ID") \/
  missing_or_empty (environ !! "LOCATION") \/
  missing_or_empty (environ !! "DATA_STORE_ID") ->
  let run := update_vertex_search environ client ev in
  log_lines (trace run) = [missing_line] /\
  submissions (trace run) = [] /\
  outcome run = Return tt.
Proof.
  intros H run. subst run.
  rewrite (run_missing environ client ev
             (proj2 (fields_present_false environ ev) H)).
  repeat split.
Qed.




(** C8: one invocation calls [import_documents] at most once. *)
Theorem at_most_one_submission
    (environ : gmap string string) (client : DocumentServiceClient)
    (ev : CloudEvent) :
  (length (submissions (trace (update_vertex_search environ client ev)))
   <= 1)%nat.
Proof.
  destruct (run_cases environ client ev)
    as [[_ Hr] | (b & n & p & l & d & _ & _ & [[_ Hr] | [_ Hr]])].
  - rewrite Hr. simpl. lia.
  - rewrite Hr. simpl. lia.
  - cbn zeta in Hr.
    destruct Hr as [(op & _ & Hr) | [(e & _ & Hr) | (c & e & _ & Hr)]];
      rewrite Hr; simpl; lia.
Qed.

(** C3, as stated, fails: a failure of the client that is not a
    [GoogleAPICallError] leaves the handler without an error line. *)
Lemma failure_not_always_logged :
  ~ failure_logged_and_reraised ex_environ timing_out_client
      (ex_event "my-bucket" "reports/q1.pdf").
Proof.
  intros H.
  destruct (H (request_of "my-project" "global" "my-store" "my-bucket"
                          "reports/q1.pdf")
              (OtherException "RetryError" "Deadline exceeded"))
    as [(line & Hin & _) _].
  - vm_compute. right. left. reflexivity.
  - reflexivity.
  - vm_compute in Hin. exact Hin.
Qed.

(** C3, amended: when [import_documents] raises for the submitted
    request, the handler ends by raising that same failure; when the
    failure is a [GoogleAPICallError], it first prints one line that
    names the URI and the failure detail, and when it is any other
    exception nothing is printed after the call. *)
Theorem client_failure_reraised
    (environ : gmap string string) (client : DocumentServiceClient)
    (ev : CloudEvent) (request : ImportDocumentsRequest) (e : PyException) :
  In (ImportDocuments request)
     (trace (update_vertex_search environ client ev)) ->
  import_documents_response client request = Raises e ->
  let run := update_vertex_search environ client ev in
  outcome run = Raise e /\
  match e with
  | GoogleAPICallError d =>
      error_logged run request e /\
      exists uri,
        input_uris (gcs_source request) = [uri] /\
        log_lines (after_submission (trace run)) =
          ["Error calling Vertex AI Search API for file " ++ uri ++ ": " ++ d]
  | OtherException _ _ => log_lines (after_submission (trace run)) = []
  end.
Proof.
  intros Hin Hresp run. subst run.
  destruct (run_cases environ client ev)
    as [[_ Hr] | (b & n & p & l & d & _ & _ & [[_ Hr] | [_ Hr]])].
  - rewrite Hr in Hin. simpl in Hin. destruct Hin as [H | []]. discriminate.
  - rewrite Hr in Hin. simpl in Hin.
    destruct Hin as [H | [H | []]]; discriminate.
  - cbn zeta in Hr.
    assert (Hreq : request = request_of p l d b n).
    { destruct Hr as [(op & _ & Hr) | [(x & _ & Hr) | (c & x & _ & Hr)]];
        rewrite Hr in Hin; simpl in Hin;
        repeat (destruct Hin as [Hin | Hin]; try discriminate;
                try contradiction);
        congruence. }
    subst request.
    destruct Hr as [(op & Hc & Hr) | [(x & Hc & Hr) | (c & x & Hc & Hr)]];
      rewrite Hc in Hresp; inversion Hresp; subst e; rewrite Hr.
    + split; [reflexivity |]. split.
      * exists ("Error calling Vertex AI Search API for file " ++
                ("gs://" ++ b ++ "/" ++ n) ++ ": " ++ x).
        split; [left; reflexivity |]. split.
        -- intros uri [<- | []].
           exists "Error calling Vertex AI Search API for file ", (": " ++ x).
           reflexivity.
        -- exists ("Error calling Vertex AI Search API for file " ++
                   ("gs://" ++ b ++ "/" ++ n) ++ ": "), EmptyString.
           simpl detail_of. rewrite append_empty_r, !append_assoc.
           reflexivity.
      * exists ("gs://" ++ b ++ "/" ++ n). split; reflexivity.
    + split; reflexivity.
Qed.

(** C7, as stated, fails: a successful submission prints three lines. *)
Lemma success_prints_three_lines :
  ~ one_call_at_most_and_one_line
      (update_vertex_search ex_environ accepting_client
         (ex_event "my-bucket" "reports/q1.pdf")).
Proof. intros [_ H]. vm_compute in H. discriminate. Qed.

(** C7, amended: every invocation makes zero or one call of the client;
    it prints one line when a field is missing, two lines when the
    extension is not supported, three lines when the submission succeeds,
    two lines when the submission raises a [GoogleAPICallError] and one
    line when it raises another exception. *)
Theorem calls_and_lines_per_branch
    (environ : gmap string string) (client : DocumentServiceClient)
    (ev : CloudEvent) :
  let run := update_vertex_search environ client ev in
  let calls := length (submissions (trace run)) in
  let lines := length (log_lines (trace run)) in
  (fields_present environ ev = false /\
   calls = 0%nat /\ lines = 1%nat /\ outcome run = Return tt)
  \/
  (fields_present environ ev = true /\
   exists name, data ev !! "name" = Some name /\
     ((extension_allowed name = false /\
       calls = 0%nat /\ lines = 2%nat /\ outcome run = Return tt)
      \/
      (extension_allowed name = true /\ calls = 1%nat /\
       ((lines = 3%nat /\ outcome run = Return tt) \/
        (lines = 2%nat /\ exists d, outcome run = Raise (GoogleAPICallError d))
        \/
        (lines = 1%nat /\
         exists c d, outcome run = Raise (OtherException c d)))))).
Proof.
  intros run calls lines. subst run calls lines.
  destruct (run_cases environ client ev)
    as [[Hp Hr] | (b & n & p & l & d & Hlook & Hp & Hrest)].
  - left. rewrite Hr. repeat split. exact Hp.
  - right. split; [exact Hp |]. exists n. split; [tauto |].
    destruct Hrest as [[Ha Hr] | [Ha Hr]].
    + left. rewrite Hr. repeat split. exact Ha.
    + right. split; [exact Ha |]. cbn zeta in Hr.
      destruct Hr as [(op & _ & Hr) | [(e & _ & Hr) | (c & e & _ & Hr)]];
        rewrite Hr; (split; [reflexivity |]).
      * left. split; reflexivity.
      * right. left. split; [reflexivity |]. exists e. reflexivity.
      * right. right. split; [reflexivity |]. exists c, e. reflexivity.
Qed.

(** C10: what an invocation does up to and including its call of the
    client (the branch it takes, the lines it prints before the call, the
    request it builds) is a function of the event and of the environment
    the module was loaded with; it depends neither on how the client
    answers nor on the invocations the process served before. *)
Theorem deterministic_until_submission
    (environ : gmap string string) (ev : CloudEvent)
    (client1 client2 : DocumentServiceClient)
    (before1 before2 : list (DocumentServiceClient * CloudEvent)) :
  let run1 := List.last (serve environ (before1 ++ [(client1, ev)])%list)
                        (ret tt) in
  let run2 := List.last (serve environ (before2 ++ [(client2, ev)])%list)
                        (ret tt) in
  run1 = update_vertex_search environ client1 ev /\
  run2 = update_vertex_search environ client2 ev /\
  until_submission (trace run1) = until_submission (trace run2) /\
  submissions (trace run1) = submissions (trace run2).
Proof.
  intros run1 run2.
  assert (Hlast : forall before client,
             List.last (serve environ (before ++ [(client, ev)])%list) (ret tt)
             = update_vertex_search environ client ev).
  { intros before client. unfold serve.
    rewrite List.map_app. simpl List.map. apply List.last_last. }
  subst run1 run2. rewrite !Hlast.
  split; [reflexivity |]. split; [reflexivity |].
  destruct (run_cases environ client1 ev)
    as [[Hp Hr] | (b & n & p & l & d & Hlook & Hp & Hrest)].
  - rewrite Hr, (run_missing environ client2 ev Hp). split; reflexivity.
  - destruct Hlook as (Hb & Hn & Hpr & Hl & Hd).
    destruct Hrest as [[Ha Hr] | [Ha Hr]].
    + rewrite Hr, (run_skipped environ client2 ev b n Hb Hn Hp Ha).
      split; reflexivity.
    + rewrite (run_submitted environ client2 ev b n p l d Hb Hn Hpr Hl Hd Hp Ha).
      cbn zeta in Hr. cbn zeta.
      destruct Hr as [(op & _ & Hr) | [(e & _ & Hr) | (c & e & _ & Hr)]];
        rewrite Hr;
        destruct (import_documents_response client2 _) as [op2 | [e2 | c2 e2]];
        split; reflexivity.
Qed.

(** C9: a name whose last component begins with a dot and has no other
    dot has the empty extension; the file is skipped and nothing is
    submitted, whatever follows the dot. *)
Theorem hidden_file_skipped
    (environ : gmap string string) (client : DocumentServiceClient)
    (ev : CloudEvent) (bucket dir rest : string) :
  dir_like dir -> occurs "." rest = false -> occurs "/" rest = false ->
  data ev !! "bucket" = Some bucket ->
  data ev !! "name" = Some (dir ++ String "." rest) ->
  fields_present environ ev = true ->
  let name := dir ++ String "." rest in
  let run := update_vertex_search environ client ev in
  snd (os_path.splitext name) = EmptyString /\
  submissions (trace run) = [] /\
  log_lines (trace run) =
    [processing_line bucket name;
     "Skipping file '" ++ name ++ "' with unsupported extension ''."] /\
  outcome run = Return tt.
Proof.
  intros Hdir Hdot Hsep Hb Hn Hp name run.
  assert (Hsplit : os_path.splitext name = (name, EmptyString)).
  { apply (splitext_with_dot dir EmptyString rest Hdir eq_refl Hsep Hdot). }
  assert (Ha : extension_allowed name = false).
  { unfold extension_allowed. rewrite Hsplit. reflexivity. }
  subst run.
  rewrite (run_skipped environ client ev bucket name Hb Hn Hp Ha).
  unfold skipping_line. rewrite Hsplit. repeat split.
Qed.

(** C6, as stated, fails: for the name [.pdf] the specification's
    extension is [.pdf], the handler's is empty. *)
Lemma hidden_pdf_extension_differs : ~ extension_as_specified ".pdf".
Proof. unfold extension_as_specified. vm_compute. discriminate. Qed.

(** C6, amended: the extension the handler compares is the suffix of the
    last path component from its last dot on, lower-cased, unless that
    component has nothing but dots before its last dot, in which case it
    is empty; and when the fields are present and that extension is not
    in the allow-set, nothing is submitted and the handler prints, after
    the processing line, a skip line with the name and the extension as
    written. *)
Theorem extension_derivation_and_skip
    (environ : gmap string string) (client : DocumentServiceClient)
    (ev : CloudEvent) (bucket name : string) :
  data ev !! "bucket" = Some bucket -> data ev !! "name" = Some name ->
  fields_present environ ev = true ->
  PyStr.lower (snd (os_path.splitext name)) ∉ ALLOWED_EXTENSIONS ->
  let run := update_vertex_search environ client ev in
  (forall n : string,
     PyStr.lower (snd (os_path.splitext n)) =
     if Spec.dots_only (Spec.stem n) then EmptyString else Spec.extension n) /\
  submissions (trace run) = [] /\
  log_lines (trace run) =
    [processing_line bucket name;
     "Skipping file '" ++ name ++ "' with unsupported extension '" ++
     snd (os_path.splitext name) ++ "'."] /\
  outcome run = Return tt.
Proof.
  intros Hb Hn Hp Hnot run. subst run.
  split; [exact lower_splitext_spec |].
  assert (Ha : extension_allowed name = false).
  { apply bool_decide_eq_false. exact Hnot. }
  rewrite (run_skipped environ client ev bucket name Hb Hn Hp Ha).
  repeat split.
Qed.

(** ** The theorems at concrete inputs *)

Lemma submitted_request_shape_witness :
  let ev := ex_event "my-bucket" "reports/q1.pdf" in
  let request := request_of "my-project" "global" "my-store" "my-bucket"
                            "reports/q1.pdf" in
  In (ImportDocuments request)
     (trace (update_vertex_search ex_environ accepting_client ev)) /\
  exists bucket name project location data_store,
    data ev !! "bucket" = Some bucket /\ data ev !! "name" = Some name /\
    ex_environ !! "PROJECT_ID" = Some project /\
    ex_environ !! "LOCATION" = Some location /\
    ex_environ !! "DATA_STORE_ID" = Some data_store /\
    input_uris (gcs_source request) = ["gs://" ++ bucket ++ "/" ++ name] /\
    data_schema (gcs_source request) = "content" /\
    reconciliation_mode request = INCREMENTAL /\
    parent request =
      branch_path project location data_store "default_branch" /\
    endswith (parent request) "/branches/default_branch".
Proof.
  intros ev request.
  assert (Hin : In (ImportDocuments request)
                   (trace (update_vertex_search ex_environ accepting_client ev))).
  { vm_compute. right. left. reflexivity. }
  split; [exact Hin |].
  exact (submitted_request_shape ex_environ accepting_client ev request Hin).
Defined.

Lemma client_failure_reraised_witness :
  let ev := ex_event "my-bucket" "reports/q1.pdf" in
  let request := request_of "my-project" "global" "my-store" "my-bucket"
                            "reports/q1.pdf" in
  let e := GoogleAPICallError "403 Permission denied" in
  let run := update_vertex_search ex_environ denying_client ev in
  outcome run = Raise e /\
  error_logged run request e /\
  exists uri,
    input_uris (gcs_source request) = [uri] /\
    log_lines (after_submission (trace run)) =
      ["Error calling Vertex AI Search API for file " ++ uri ++
       ": " ++ "403 Permission denied"].
Proof.
  intros ev request e.
  apply (client_failure_reraised ex_environ denying_client ev request e).
  - vm_compute. right. left. reflexivity.
  - reflexivity.
Defined.

Lemma missing_fields_noop_witness :
  let run := update_vertex_search ex_environ accepting_client
               (ex_event EmptyString "reports/q1.pdf") in
  log_lines (trace run) = [missing_line] /\
  submissions (trace run) = [] /\
  outcome run = Return tt.
Proof.
  apply (missing_fields_noop ex_environ accepting_client
           (ex_event EmptyString "reports/q1.pdf")).
  left. right. vm_compute. reflexivity.
Defined.


Lemma extension_derivation_and_skip_witness :
  let run := update_vertex_search ex_environ accepting_client
               (ex_event "my-bucket" "notes/README.md") in
  (forall n : string,
     PyStr.lower (snd (os_path.splitext n)) =
     if Spec.dots_only (Spec.stem n) then EmptyString else Spec.extension n) /\
  submissions (trace run) = [] /\
  log_lines (trace run) =
    [processing_line "my-bucket" "notes/README.md";
     "Skipping file '" ++ "notes/README.md" ++
     "' with unsupported extension '" ++
     snd (os_path.splitext "notes/README.md") ++ "'."] /\
  outcome run = Return tt.
Proof.
  apply (extension_derivation_and_skip ex_environ accepting_client
           (ex_event "my-bucket" "notes/README.md")
           "my-bucket" "notes/README.md");
    try (vm_compute; reflexivity).
  apply (bool_decide_unpack _). vm_compute. exact I.
Defined.

Lemma hidden_file_skipped_witness :
  let name := "dir/" ++ String "." "docx" in
  let run := update_vertex_search ex_environ accepting_client
               (ex_event "my-bucket" "dir/.docx") in
  snd (os_path.splitext name) = EmptyString /\
  submissions (trace run) = [] /\
  log_lines (trace run) =
    [processing_line "my-bucket" name;
     "Skipping file '" ++ name ++ "' with unsupported extension ''."] /\
  outcome run = Return tt.
Proof.
  apply (hidden_file_skipped ex_environ accepting_client
           (ex_event "my-bucket" "dir/.docx") "my-bucket" "dir/" "docx");
    try (vm_compute; reflexivity).
  right. exists "dir". reflexivity.
Defined.

(** ** Runs of the handler on sample events *)

Example splitext_q1 :
  os_path.splitext "reports/q1.pdf" = ("reports/q1", ".pdf").
Proof. reflexivity. Qed.

Example splitext_hidden :
  os_path.splitext "dir/.docx" = ("dir/.docx", EmptyString).
Proof. reflexivity. Qed.

Example splitext_dotted_dir :
  os_path.splitext "a.b/c" = ("a.b/c", EmptyString).
Proof. reflexivity. Qed.

Example splitext_two_dots :
  os_path.splitext "x/..a.TXT" = ("x/..a", ".TXT").
Proof. reflexivity. Qed.

Example splitext_only_dots :
  os_path.splitext "..pdf" = ("..pdf", EmptyString).
Proof. reflexivity. Qed.

Example extension_case_insensitive :
  extension_allowed "a.PDF" = true /\ extension_allowed "a.Pdf" = true /\
  extension_allowed "a.pdf" = true /\ extension_allowed "a.pdfx" = false.
Proof. vm_compute. repeat split. Qed.

Example run_q1 :
  update_vertex_search ex_environ accepting_client
    (ex_event "my-bucket" "reports/q1.pdf") =
  ([Print "Processing file: gs://my-bucket/reports/q1.pdf";
    ImportDocuments
      {| parent := "projects/my-project/locations/global/collections/default_collection/dataStores/my-store/branches/default_branch";
         gcs_source := {| input_uris := ["gs://my-bucket/reports/q1.pdf"];
                          data_schema := "content" |};
         reconciliation_mode := INCREMENTAL |};
    Print "Started Vertex AI Search import operation: operations/import-1";
    Print "Successfully triggered import for: gs://my-bucket/reports/q1.pdf"],
   Return tt).
Proof. vm_compute. reflexivity. Qed.

Example run_hidden_pdf :
  update_vertex_search ex_environ accepting_client
    (ex_event "my-bucket" ".pdf") =
  ([Print "Processing file: gs://my-bucket/.pdf";
    Print "Skipping file '.pdf' with unsupported extension ''."],
   Return tt).
Proof. vm_compute. reflexivity. Qed.

Example run_denied :
  update_vertex_search ex_environ denying_client
    (ex_event "my-bucket" "reports/q1.pdf") =
  ([Print "Processing file: gs://my-bucket/reports/q1.pdf";
    ImportDocuments (request_of "my-project" "global" "my-store" "my-bucket"
                                "reports/q1.pdf");
    Print "Error calling Vertex AI Search API for file gs://my-bucket/reports/q1.pdf: 403 Permission denied"],
   Raise (GoogleAPICallError "403 Permission denied")).
Proof. vm_compute. reflexivity. Qed.

Example run_timed_out :
  update_vertex_search ex_environ timing_out_client
    (ex_event "my-bucket" "reports/q1.pdf") =
  ([Print "Processing file: gs://my-bucket/reports/q1.pdf";
    ImportDocuments (request_of "my-project" "global" "my-store" "my-bucket"
                                "reports/q1.pdf")],
   Raise (OtherException "RetryError" "Deadline exceeded")).
Proof. vm_compute. reflexivity. Qed.

Example run_no_location :
  update_vertex_search (delete "LOCATION" ex_environ) accepting_client
    (ex_event "my-bucket" "reports/q1.pdf") =
  ([Print missing_line], Return tt).
Proof. vm_compute. reflexivity. Qed.

(** * Further properties of the handler *)

(** ** Slices and case folding *)

Lemma take_drop (n : nat) (s : string) : PyStr.take n s ++ PyStr.drop n s = s.
Proof.
  revert s. induction n as [|n IH]; intros s; [reflexivity |].
  destruct s as [|a s]; [reflexivity |].
  simpl. rewrite append_cons, IH. reflexivity.
Qed.

Lemma lower_take (n : nat) (s : string) :
  PyStr.take n (PyStr.lower s) = PyStr.lower (PyStr.take n s).
Proof.
  revert s. induction n as [|n IH]; intros s; [reflexivity |].
  destruct s as [|a s]; [reflexivity |]. simpl. rewrite IH. reflexivity.
Qed.

Lemma lower_drop (n : nat) (s : string) :
  PyStr.drop n (PyStr.lower s) = PyStr.lower (PyStr.drop n s).
Proof.
  revert s. induction n as [|n IH]; intros s; [reflexivity |].
  destruct s as [|a s]; [reflexivity |]. simpl. apply IH.
Qed.

(** Case folding neither creates nor removes a dot or a separator. *)
Lemma lower_ascii_extsep (a : ascii) :
  Ascii.eqb (PyStr.lower_ascii a) os_path.extsep = Ascii.eqb a os_path.extsep.
Proof. destruct a as [[] [] [] [] [] [] [] []]; reflexivity. Qed.

Lemma lower_ascii_sep (a : ascii) :
  Ascii.eqb (PyStr.lower_ascii a) os_path.sep = Ascii.eqb a os_path.sep.
Proof. destruct a as [[] [] [] [] [] [] [] []]; reflexivity. Qed.

Lemma rfind_from_lower (c : ascii) :
  (forall a, Ascii.eqb (PyStr.lower_ascii a) c = Ascii.eqb a c) ->
  forall s i acc,
    PyStr.rfind_from (PyStr.lower s) c i acc = PyStr.rfind_from s c i acc.
Proof.
  intros Hc. induction s as [|a s IH]; intros i acc; [reflexivity |].
  simpl. rewrite Hc. apply IH.
Qed.

Lemma skip_leading_dots_lower (fuel : nat) (p : string) (f d : Z) :
  os_path.skip_leading_dots fuel (PyStr.lower p) f d =
  os_path.skip_leading_dots fuel p f d.
Proof.
  revert f. induction fuel as [|fuel IH]; intros f; [reflexivity |].
  cbn [os_path.skip_leading_dots]. rewrite IH.
  replace (String.eqb (PyStr.slice1 (PyStr.lower p) f)
                      (String os_path.extsep EmptyString))
    with (String.eqb (PyStr.slice1 p f) (String os_path.extsep EmptyString));
    [reflexivity |].
  unfold PyStr.slice1. rewrite lower_drop.
  destruct (PyStr.drop (Z.to_nat f) p) as [|a t]; [reflexivity |].
  cbn [PyStr.lower PyStr.take String.eqb]. rewrite lower_ascii_extsep.
  reflexivity.
Qed.

Lemma splitext_lower (p : string) :
  os_path.splitext (PyStr.lower p) =
  (PyStr.lower (fst (os_path.splitext p)),
   PyStr.lower (snd (os_path.splitext p))).
Proof.
  unfold os_path.splitext, PyStr.rfind.
  rewrite (rfind_from_lower _ lower_ascii_sep),
          (rfind_from_lower _ lower_ascii_extsep),
          skip_leading_dots_lower.
  match goal with |- (if ?c then _ else _) = _ => destruct c end.
  - cbn [fst snd]. rewrite lower_take, lower_drop. reflexivity.
  - reflexivity.
Qed.

(** ** Every name, split as [splitext] sees it *)

Lemma splitext_cases (name : string) :
  exists dir base,
    name = dir ++ base /\ dir_like dir /\ occurs "/" base = false /\
    ((occurs "." base = false /\
      os_path.splitext name = (name, EmptyString))
     \/
     (exists stem e,
        base = stem ++ String "." e /\
        occurs "/" stem = false /\ occurs "/" e = false /\
        occurs "." e = false /\
        os_path.splitext name =
          if Spec.dots_only stem then (name, EmptyString)
          else (dir ++ stem, String "." e))).
Proof.
  destruct (split_dir name) as (dir & base & -> & Hdir & Hsep).
  exists dir, base. repeat (split; [assumption || reflexivity |]).
  destruct (split_at_last "." base) as [Hdot | (stem & e & -> & Hdot)].
  - left. split; [exact Hdot |].
    apply (splitext_without_dot dir base Hdir Hsep Hdot).
  - right. exists stem, e.
    rewrite occurs_append in Hsep. apply orb_false_iff in Hsep.
    destruct Hsep as [Hstem He]. simpl in He.
    repeat (split; [assumption || reflexivity |]).
    apply (splitext_with_dot dir stem e Hdir Hstem He Hdot).
Qed.

(** How many requests a run submits, read off the two tests. *)
Lemma submission_count (environ : gmap string string)
    (client : DocumentServiceClient) (ev : CloudEvent) :
  length (submissions (trace (update_vertex_search environ client ev))) =
  if fields_present environ ev &&
     match data ev !! "name" with
     | Some name => extension_allowed name
     | None => false
     end
  then 1%nat else 0%nat.
Proof.
  destruct (run_cases environ client ev)
    as [[Hp Hr] | (b & n & p & l & d & Hlook & Hp & Hrest)].
  - rewrite Hr, Hp. reflexivity.
  - destruct Hlook as (_ & Hn & _). rewrite Hp, Hn.
    destruct Hrest as [[Ha Hr] | [Ha Hr]]; rewrite Ha.
    + rewrite Hr. reflexivity.
    + cbn zeta in Hr.
      destruct Hr as [(op & _ & Hr) | [(e & _ & Hr) | (c & e & _ & Hr)]];
        rewrite Hr; reflexivity.
Qed.

Lemma lower_nonempty (s : string) :
  PyStr.nonempty (PyStr.lower s) = PyStr.nonempty s.
Proof. destruct s; reflexivity. Qed.

Lemma extension_allowed_lower (name : string) :
  extension_allowed name =
  bool_decide (snd (os_path.splitext (PyStr.lower name)) ∈ ALLOWED_EXTENSIONS).
Proof. unfold extension_allowed. rewrite splitext_lower. reflexivity. Qed.

(** ** What [splitext] hands to the handler (main.py, line 43) *)

(** X1: root and extension put together give the name back. *)
Theorem splitext_rejoins (p : string) :
  fst (os_path.splitext p) ++ snd (os_path.splitext p) = p.
Proof.
  unfold os_path.splitext.
  match goal with |- context [if ?c then _ else _] => destruct c end.
  - apply take_drop.
  - apply append_empty_r.
Qed.

(** X2: the extension is empty, or it is a dot followed by characters
    among which there is neither a dot nor a path separator. *)
Theorem extension_shape (p : string) :
  snd (os_path.splitext p) = EmptyString \/
  exists e, snd (os_path.splitext p) = String "." e /\
            occurs "." e = false /\ occurs "/" e = false.
Proof.
  destruct (splitext_cases p)
    as (dir & base & _ & _ & _ &
        [[_ ->] | (stem & e & _ & _ & He & Hdot & ->)]).
  - left. reflexivity.
  - destruct (Spec.dots_only stem).
    + left. reflexivity.
    + right. exists e. repeat split; assumption.
Qed.

(** X10: the directory part of an object name has no influence on the
    extension, whatever dots it contains. *)
Theorem extension_ignores_directory (dir base : string) :
  dir_like dir -> occurs "/" base = false ->
  snd (os_path.splitext (dir ++ base)) = snd (os_path.splitext base) /\
  extension_allowed (dir ++ base) = extension_allowed base.
Proof.
  intros Hdir Hsep.
  assert (H : snd (os_path.splitext (dir ++ base)) =
              snd (os_path.splitext base)).
  { assert (Hnil : dir_like EmptyString) by (left; reflexivity).
    destruct (split_at_last "." base) as [Hdot | (stem & e & -> & Hdot)].
    - rewrite (splitext_without_dot dir base Hdir Hsep Hdot).
      rewrite <- (append_empty_l base) at 2.
      rewrite (splitext_without_dot EmptyString base Hnil Hsep Hdot).
      reflexivity.
    - rewrite occurs_append in Hsep. apply orb_false_iff in Hsep.
      destruct Hsep as [Hstem He]. simpl in He.
      rewrite (splitext_with_dot dir stem e Hdir Hstem He Hdot).
      rewrite <- (append_empty_l (stem ++ String "." e)).
      rewrite (splitext_with_dot EmptyString stem e Hnil Hstem He Hdot).
      destruct (Spec.dots_only stem); reflexivity. }
  split; [exact H |]. unfold extension_allowed. rewrite H. reflexivity.
Qed.

(** X7: the names that pass the extension test are exactly those made of
    a directory prefix, a stem that is not made of dots alone, and a dot
    with a suffix free of dots and separators whose lower-cased form is
    in the allow-set. *)
Theorem extension_allowed_names (name : string) :
  extension_allowed name = true <->
  exists dir stem e,
    name = dir ++ stem ++ String "." e /\ dir_like dir /\
    occurs "/" stem = false /\ Spec.dots_only stem = false /\
    occurs "." e = false /\ occurs "/" e = false /\
    PyStr.lower (String "." e) ∈ ALLOWED_EXTENSIONS.
Proof.
  rewrite extension_allowed_true. split.
  - intros Hin.
    destruct (splitext_cases name)
      as (dir & base & Hname & Hdir & _ &
          [[_ Hs] | (stem & e & Hbase & Hstem & He & Hdot & Hs)]).
    + rewrite Hs in Hin. exfalso. revert Hin.
      apply (bool_decide_unpack _). vm_compute. exact I.
    + destruct (Spec.dots_only stem) eqn:Hd; rewrite Hs in Hin.
      * exfalso. revert Hin.
        apply (bool_decide_unpack _). vm_compute. exact I.
      * exists dir, stem, e. subst base.
        repeat (split; [assumption |]). exact Hin.
  - intros (dir & stem & e & -> & Hdir & Hstem & Hd & Hdot & He & Hin).
    rewrite (splitext_with_dot dir stem e Hdir Hstem He Hdot), Hd.
    exact Hin.
Qed.

(** ** The handler *)

(** X3: two events whose object names differ only in letter case (same
    bucket, same environment) lead to the same number of submissions,
    whatever the clients answer. *)
Theorem case_of_name_irrelevant
    (environ : gmap string string) (client1 client2 : DocumentServiceClient)
    (ev1 ev2 : CloudEvent) (name1 name2 : string) :
  data ev1 !! "bucket" = data ev2 !! "bucket" ->
  data ev1 !! "name" = Some name1 -> data ev2 !! "name" = Some name2 ->
  PyStr.lower name1 = PyStr.lower name2 ->
  length (submissions (trace (update_vertex_search environ client1 ev1))) =
  length (submissions (trace (update_vertex_search environ client2 ev2))).
Proof.
  intros Hb H1 H2 Hlow. rewrite !submission_count.
  unfold fields_present. rewrite Hb, H1, H2.
  rewrite !extension_allowed_lower, Hlow.
  cbn [truthy]. rewrite <- (lower_nonempty name1), Hlow, lower_nonempty.
  reflexivity.
Qed.

(** X4: the handler raises only what the client raised for the request
    it submitted; the early returns never raise. *)
Theorem raises_only_what_client_raised
    (environ : gmap string string) (client : DocumentServiceClient)
    (ev : CloudEvent) (e : PyException) :
  outcome (update_vertex_search environ client ev) = Raise e ->
  exists request,
    submissions (trace (update_vertex_search environ client ev)) = [request] /\
    import_documents_response client request = Raises e.
Proof.
  intros Hout.
  destruct (run_cases environ client ev)
    as [[_ Hr] | (b & n & p & l & d & _ & _ & [[_ Hr] | [_ Hr]])].
  - rewrite Hr in Hout. discriminate.
  - rewrite Hr in Hout. discriminate.
  - cbn zeta in Hr.
    destruct Hr as [(op & Hc & Hr) | [(x & Hc & Hr) | (c & x & Hc & Hr)]];
      rewrite Hr in Hout |- *; cbn in Hout; try discriminate;
      inversion Hout; subst e;
      exists (request_of p l d b n); (split; [reflexivity | exact Hc]).
Qed.

(** X5: when the client accepts the submitted request, the handler
    prints the name of the operation and then a success line with the
    URI, and returns normally. *)
Theorem accepted_submission_logged
    (environ : gmap string string) (client : DocumentServiceClient)
    (ev : CloudEvent) (request : ImportDocumentsRequest) (op : string) :
  In (ImportDocuments request)
     (trace (update_vertex_search environ client ev)) ->
  import_documents_response client request = Operation op ->
  let run := update_vertex_search environ client ev in
  outcome run = Return tt /\
  exists uri,
    input_uris (gcs_source request) = [uri] /\
    log_lines (after_submission (trace run)) =
      ["Started Vertex AI Search import operation: " ++ op;
       "Successfully triggered import for: " ++ uri].
Proof.
  intros Hin Hresp run. subst run.
  destruct (run_cases environ client ev)
    as [[_ Hr] | (b & n & p & l & d & _ & _ & [[_ Hr] | [_ Hr]])].
  - rewrite Hr in Hin. simpl in Hin. destruct Hin as [H | []]. discriminate.
  - rewrite Hr in Hin. simpl in Hin.
    destruct Hin as [H | [H | []]]; discriminate.
  - cbn zeta in Hr.
    assert (Hreq : request = request_of p l d b n).
    { destruct Hr as [(o & _ & Hr) | [(x & _ & Hr) | (c & x & _ & Hr)]];
        rewrite Hr in Hin; simpl in Hin;
        repeat (destruct Hin as [Hin | Hin]; try discriminate;
                try contradiction);
        congruence. }
    subst request.
    destruct Hr as [(o & Hc & Hr) | [(x & Hc & Hr) | (c & x & Hc & Hr)]];
      rewrite Hc in Hresp; inversion Hresp; subst; rewrite Hr.
    split; [reflexivity |].
    exists ("gs://" ++ b ++ "/" ++ n). split; reflexivity.
Qed.

(** X6: the handler reads the keys [bucket] and [name] of the payload
    and the variables PROJECT_ID, LOCATION and DATA_STORE_ID of the
    environment, and nothing else: payloads and environments that agree
    on these give the same run. *)
Theorem only_five_values_read
    (environ1 environ2 : gmap string string) (client : DocumentServiceClient)
    (ev1 ev2 : CloudEvent) :
  data ev1 !! "bucket" = data ev2 !! "bucket" ->
  data ev1 !! "name" = data ev2 !! "name" ->
  environ1 !! "PROJECT_ID" = environ2 !! "PROJECT_ID" ->
  environ1 !! "LOCATION" = environ2 !! "LOCATION" ->
  environ1 !! "DATA_STORE_ID" = environ2 !! "DATA_STORE_ID" ->
  update_vertex_search environ1 client ev1 =
  update_vertex_search environ2 client ev2.
Proof.
  intros Hb Hn Hp Hl Hd.
  unfold update_vertex_search, PROJECT_ID, LOCATION, DATA_STORE_ID.
  rewrite Hb, Hn, Hp, Hl, Hd. reflexivity.
Qed.

(** X8: an object name whose last path component has no dot (a plain
    name, or a folder placeholder that ends in the separator) is never
    submitted. *)
Theorem name_without_dot_not_submitted
    (environ : gmap string string) (client : DocumentServiceClient)
    (ev : CloudEvent) (dir base : string) :
  dir_like dir -> occurs "/" base = false -> occurs "." base = false ->
  data ev !! "name" = Some (dir ++ base) ->
  submissions (trace (update_vertex_search environ client ev)) = [].
Proof.
  intros Hdir Hsep Hdot Hn.
  apply List.length_zero_iff_nil. rewrite submission_count, Hn.
  unfold extension_allowed.
  rewrite (splitext_without_dot dir base Hdir Hsep Hdot).
  rewrite andb_comm. reflexivity.
Qed.

(** X11: a call of the client is always preceded by the processing line
    for the URI it submits, and by nothing else. *)
Theorem submission_preceded_by_processing_line
    (environ : gmap string string) (client : DocumentServiceClient)
    (ev : CloudEvent) (request : ImportDocumentsRequest) :
  In (ImportDocuments request)
     (trace (update_vertex_search environ client ev)) ->
  exists uri,
    input_uris (gcs_source request) = [uri] /\
    until_submission (trace (update_vertex_search environ client ev)) =
      [Print ("Processing file: " ++ uri); ImportDocuments request].
Proof.
  intros Hin.
  destruct (run_cases environ client ev)
    as [[_ Hr] | (b & n & p & l & d & _ & _ & [[_ Hr] | [_ Hr]])].
  - rewrite Hr in Hin. simpl in Hin. destruct Hin as [H | []]. discriminate.
  - rewrite Hr in Hin. simpl in Hin.
    destruct Hin as [H | [H | []]]; discriminate.
  - cbn zeta in Hr. exists ("gs://" ++ b ++ "/" ++ n).
    destruct Hr as [(o & _ & Hr) | [(x & _ & Hr) | (c & x & _ & Hr)]];
      rewrite Hr in Hin |- *; simpl in Hin;
      repeat (destruct Hin as [Hin | Hin]; try discriminate;
              try contradiction);
      inversion Hin; subst request; split; reflexivity.
Qed.

(** ** The URI (main.py, line 49) *)

Lemma split_at_first_sep (b1 b2 n1 n2 : string) :
  occurs "/" b1 = false -> occurs "/" b2 = false ->
  b1 ++ String "/" n1 = b2 ++ String "/" n2 -> b1 = b2 /\ n1 = n2.
Proof.
  revert b2. induction b1 as [|a b1 IH]; intros b2 H1 H2 Heq.
  - destruct b2 as [|a2 b2].
    + rewrite !append_empty_l in Heq. split; congruence.
    + rewrite append_empty_l, append_cons in Heq. inversion Heq. subst a2.
      simpl in H2. discriminate.
  - destruct b2 as [|a2 b2].
    + rewrite append_empty_l, append_cons in Heq. inversion Heq. subst a.
      simpl in H1. discriminate.
    + rewrite !append_cons in Heq. inversion Heq. subst a2.
      simpl in H1, H2. apply orb_false_iff in H1, H2.
      destruct (IH b2 (proj2 H1) (proj2 H2) H3) as [-> ->].
      split; reflexivity.
Qed.

(** X9: for buckets whose names have no separator, the URI list of the
    request determines bucket and object name. *)
Theorem request_uri_determines_object
    (p1 l1 d1 p2 l2 d2 bucket1 name1 bucket2 name2 : string) :
  occurs "/" bucket1 = false -> occurs "/" bucket2 = false ->
  input_uris (gcs_source (request_of p1 l1 d1 bucket1 name1)) =
  input_uris (gcs_source (request_of p2 l2 d2 bucket2 name2)) ->
  bucket1 = bucket2 /\ name1 = name2.
Proof.
  intros H1 H2 Heq. simpl in Heq. inversion Heq as [Huri].
  apply (split_at_first_sep bucket1 bucket2 name1 name2 H1 H2).
  change ("gs://" ++ bucket1 ++ "/" ++ name1)
    with ("gs://" ++ (bucket1 ++ String "/" name1)) in Huri.
  change ("gs://" ++ bucket2 ++ "/" ++ name2)
    with ("gs://" ++ (bucket2 ++ String "/" name2)) in Huri.
  repeat (rewrite append_cons in Huri; inversion Huri as [Huri']; clear Huri;
          rename Huri' into Huri).
  exact Huri.
Qed.

(** ** The further properties at concrete inputs *)

Lemma extension_ignores_directory_witness :
  snd (os_path.splitext ("v1.2/" ++ "notes.TXT")) =
    snd (os_path.splitext "notes.TXT") /\
  extension_allowed ("v1.2/" ++ "notes.TXT") = extension_allowed "notes.TXT".
Proof.
  apply (extension_ignores_directory "v1.2/" "notes.TXT").
  - right. exists "v1.2". reflexivity.
  - reflexivity.
Defined.

Lemma case_of_name_irrelevant_witness :
  length (submissions (trace (update_vertex_search ex_environ accepting_client
            (ex_event "my-bucket" "reports/Q1.PDF")))) =
  length (submissions (trace (update_vertex_search ex_environ denying_client
            (ex_event "my-bucket" "reports/q1.pdf")))).
Proof.
  apply (case_of_name_irrelevant ex_environ accepting_client denying_client
           (ex_event "my-bucket" "reports/Q1.PDF")
           (ex_event "my-bucket" "reports/q1.pdf")
           "reports/Q1.PDF" "reports/q1.pdf");
    vm_compute; reflexivity.
Defined.

Lemma raises_only_what_client_raised_witness :
  exists request,
    submissions (trace (update_vertex_search ex_environ denying_client
                          (ex_event "my-bucket" "reports/q1.pdf")))
      = [request] /\
    import_documents_response denying_client request =
      Raises (GoogleAPICallError "403 Permission denied").
Proof.
  apply (raises_only_what_client_raised ex_environ denying_client
           (ex_event "my-bucket" "reports/q1.pdf")
           (GoogleAPICallError "403 Permission denied")).
  vm_compute. reflexivity.
Defined.

Lemma accepted_submission_logged_witness :
  let request := request_of "my-project" "global" "my-store" "my-bucket"
                            "reports/q1.pdf" in
  let run := update_vertex_search ex_environ accepting_client
               (ex_event "my-bucket" "reports/q1.pdf") in
  outcome run = Return tt /\
  exists uri,
    input_uris (gcs_source request) = [uri] /\
    log_lines (after_submission (trace run)) =
      ["Started Vertex AI Search import operation: " ++ "operations/import-1";
       "Successfully triggered import for: " ++ uri].
Proof.
  intros request.
  apply (accepted_submission_logged ex_environ accepting_client
           (ex_event "my-bucket" "reports/q1.pdf") request
           "operations/import-1").
  - vm_compute. right. left. reflexivity.
  - reflexivity.
Defined.

Lemma only_five_values_read_witness :
  update_vertex_search ex_environ accepting_client
    (ex_event "my-bucket" "reports/q1.pdf") =
  update_vertex_search (<["HOME" := "/root"]> ex_environ) accepting_client
    {| data := <["contentType" := "application/pdf"]>
                 (data (ex_event "my-bucket" "reports/q1.pdf")) |}.
Proof.
  apply (only_five_values_read ex_environ (<["HOME" := "/root"]> ex_environ)
           accepting_client (ex_event "my-bucket" "reports/q1.pdf")
           {| data := <["contentType" := "application/pdf"]>
                        (data (ex_event "my-bucket" "reports/q1.pdf")) |});
    vm_compute; reflexivity.
Defined.

Lemma name_without_dot_not_submitted_witness :
  submissions (trace (update_vertex_search ex_environ accepting_client
                        (ex_event "my-bucket" "reports.2024/"))) = [].
Proof.
  apply (name_without_dot_not_submitted ex_environ accepting_client
           (ex_event "my-bucket" "reports.2024/") "reports.2024/" EmptyString).
  - right. exists "reports.2024". reflexivity.
  - reflexivity.
  - reflexivity.
  - vm_compute. reflexivity.
Defined.

Lemma submission_preceded_by_processing_line_witness :
  let request := request_of "my-project" "global" "my-store" "my-bucket"
                            "reports/q1.pdf" in
  exists uri,
    input_uris (gcs_source request) = [uri] /\
    until_submission
      (trace (update_vertex_search ex_environ timing_out_client
                (ex_event "my-bucket" "reports/q1.pdf"))) =
      [Print ("Processing file: " ++ uri); ImportDocuments request].
Proof.
  intros request.
  apply (submission_preceded_by_processing_line ex_environ timing_out_client
           (ex_event "my-bucket" "reports/q1.pdf") request).
  vm_compute. right. left. reflexivity.
Defined.

Lemma request_uri_determines_object_witness :
  "my-bucket" = "my-bucket" /\ "reports/q1.pdf" = "reports/q1.pdf".
Proof.
  apply (request_uri_determines_object
           "my-project" "global" "my-store" "other-project" "us" "other-store"
           "my-bucket" "reports/q1.pdf" "my-bucket" "reports/q1.pdf");
    reflexivity.
Defined.

(** Without the condition on the bucket, two objects can share a URI. *)
Example uri_shared_when_bucket_has_separator :
  input_uris (gcs_source (request_of "p" "l" "d" "a/b" "c")) =
  input_uris (gcs_source (request_of "p" "l" "d" "a" "b/c")).
Proof. reflexivity. Qed.
